(** * Score Normalizer: the arithmetic core of [ScoreNormalizer]

    A shallow embedding of the statistics and normalization code of the
    React component [ScoreNormalizer] (state hooks, the two [useMemo]
    bodies [stats] and [normalizedData], the three list handlers
    [addStudent], [removeStudent], [updateStudent] and the text built by
    [downloadCSV]), followed by the properties the specification states
    about them.

    Numbers.  The numbers of the language are IEEE 754 binary64 values,
    and the engine is embedded twice.  The module [Binary64] embeds it
    over binary64 arithmetic as [SpecFloat] specifies it: every
    operation rounds, overflows and produces [NaN] as in the language.
    The statements about the values the engine computes (the
    statistics, the range, the rounding and the gap of the adjusted
    scores, the zero-mean fallback and the target) are made there.  The
    other embedding, which comes first, takes a number to be an exact
    rational or [NaN]: arithmetic without rounding error, overflow or
    infinities.  It carries the table handlers and the export, and the
    statements that do not depend on the digits of a result: which rows
    take part in the statistics, how [NaN] spreads, and the order of the
    adjusted scores, which rounding to nearest does not invert. *)

From Stdlib Require Import String List ZArith QArith Qround Qabs Qpower Bool.
From Stdlib Require Import Lia Lra Psatz.
From Stdlib Require Import Reals Qreals.
From Stdlib Require Import DecimalString.
From Stdlib Require SpecFloat.
Import ListNotations.

(** * The engine over exact numbers *)

(** ** The number model *)

(** An exact rational or [NaN]. *)
Inductive number : Type :=
| Num (q : Q)
| NaN.

(** Two numbers denote the same value. [NaN] is only related to itself
    here: this is the meta-level "same result", not the operator [===]. *)
Definition same (x y : number) : Prop :=
  match x, y with
  | Num a, Num b => (a == b)%Q
  | NaN, NaN => True
  | _, _ => False
  end.

Infix "=n=" := same (at level 70, no associativity).

(** The value of the [raw] field of a student.  The initial rows and
    [addStudent] store numbers; [updateStudent] stores the text of an
    [<input type="number">], which the browser sanitises to the empty
    string or to a valid floating-point literal.  [Number] and
    [parseFloat] agree on such a literal, so it is identified with the
    number it denotes; the empty string is kept apart because the two
    conversions differ on it. *)
Inductive value : Type :=
| VNumber (x : number)
| VEmpty.

Module Js.

Definition of_nat (n : nat) : number := Num (inject_Z (Z.of_nat n)).

Definition add (x y : number) : number :=
  match x, y with
  | Num a, Num b => Num (a + b)
  | _, _ => NaN
  end.

Definition sub (x y : number) : number :=
  match x, y with
  | Num a, Num b => Num (a - b)
  | _, _ => NaN
  end.

Definition mul (x y : number) : number :=
  match x, y with
  | Num a, Num b => Num (a * b)
  | _, _ => NaN
  end.

(** [x / y].  With a zero divisor the language yields an infinity or
    [NaN]; this model has no infinities and answers [NaN]. *)
Definition div (x y : number) : number :=
  match x, y with
  | Num a, Num b => if Qeq_bool b 0 then NaN else Num (a / b)
  | _, _ => NaN
  end.

(** [Math.pow(x, 2)] *)
Definition pow2 (x : number) : number := mul x x.

(** [x === 0] on numbers: false for [NaN]. *)
Definition is_zero (x : number) : bool :=
  match x with
  | Num a => Qeq_bool a 0
  | NaN => false
  end.

Definition Math_max (x y : number) : number :=
  match x, y with
  | Num a, Num b => Num (if Qle_bool a b then b else a)
  | _, _ => NaN
  end.

Definition Math_min (x y : number) : number :=
  match x, y with
  | Num a, Num b => Num (if Qle_bool a b then a else b)
  | _, _ => NaN
  end.

(** [Math.sqrt].  The square root of a rational is irrational in
    general, so the result is a real number; [None] stands for [NaN]
    (a [NaN] or negative argument). *)
Definition Math_sqrt (x : number) : option R :=
  match x with
  | Num a => if Qle_bool 0 a then Some (sqrt (Q2R a)) else None
  | NaN => None
  end.

(** The number test on a number. *)
Definition number_isNaN (x : number) : bool :=
  match x with
  | Num _ => false
  | NaN => true
  end.

(** Global [isNaN(v)]: converts with [Number] first, and [Number('')]
    is [0]. *)
Definition isNaN (v : value) : bool :=
  match v with
  | VNumber x => number_isNaN x
  | VEmpty => false
  end.

(** [parseFloat(v)]: [parseFloat('')] is [NaN]. *)
Definition parseFloat (v : value) : number :=
  match v with
  | VNumber x => x
  | VEmpty => NaN
  end.

(** [v !== ''] *)
Definition not_empty_string (v : value) : bool :=
  match v with
  | VNumber _ => true
  | VEmpty => false
  end.

(** The magnitude part of [Number.prototype.toFixed] with two
    fraction digits, for [a >= 0]: from [10^21] on the number is
    printed by [ToString], which [parseFloat] reads back unchanged;
    below, the digits are those of the integer [n] nearest to
    [a * 100], the larger one on a tie. *)
Definition fixed2_magnitude (a : Q) : Q :=
  if Qle_bool (inject_Z (10 ^ 21)) a then a
  else inject_Z (Qfloor (a * 100 + (1 # 2))) / 100.

(** [parseFloat(x.toFixed(2))] on a rational: [toFixed] prints the
    sign and then the magnitude of [-x]. *)
Definition fixed2 (x : Q) : Q :=
  if Qle_bool 0 x then fixed2_magnitude x else - fixed2_magnitude (- x).

(** [parseFloat(x.toFixed(2))]: [NaN.toFixed(2)] is the text "NaN". *)
Definition parseFloat_toFixed2 (x : number) : number :=
  match x with
  | Num a => Num (fixed2 a)
  | NaN => NaN
  end.

End Js.

(** ** Data model *)

(** A row of the table.  The ids are the integers [1, 2, ...] handed out
    by [addStudent] and are kept as integers; [s.id === id] is equality
    of integers. *)
Record Student : Type := mkStudent {
  id : Z;
  name : string;
  raw : value
}.

(** The three aggregate statistics. [rawSD] is a real, see
    [Js.Math_sqrt]. *)
Record Stats : Type := mkStats {
  rawMean : number;
  rawSD : option R;
  targetMeanPoints : number
}.

(** One element of [normalizedData]: [{ ...student, adjusted }]. *)
Record Normalized : Type := mkNormalized {
  student :> Student;
  adjusted : number
}.

(** ** Statistics calculation *)

Definition valid (s : Student) : bool :=
  Js.not_empty_string (raw s) && negb (Js.isNaN (raw s)).

Definition validScores (students : list Student) : list number :=
  map (fun s => Js.parseFloat (raw s)) (filter valid students).

Definition stats (students : list Student)
    (maxMarks targetMeanPercent : number) : Stats :=
  let validScores := validScores students in
  let count := length validScores in
  if Nat.eqb count 0 then
    {| rawMean := Num 0; rawSD := Some 0%R; targetMeanPoints := Num 0 |}
  else
    let sum := fold_left Js.add validScores (Num 0) in
    let rawMean := Js.div sum (Js.of_nat count) in
    let squareDiffs :=
      map (fun val => Js.pow2 (Js.sub val rawMean)) validScores in
    let variance :=
      Js.div (fold_left Js.add squareDiffs (Num 0)) (Js.of_nat count) in
    let rawSD := Js.Math_sqrt variance in
    let targetMeanPoints :=
      Js.mul (Js.div targetMeanPercent (Num 100)) maxMarks in
    {| rawMean := rawMean; rawSD := rawSD;
       targetMeanPoints := targetMeanPoints |}.

(** ** Normalization logic *)

(** The formula selected by [method]: the value of [adjusted] before
    the clamp. *)
Definition formula (stats : Stats) (method : string) (sdScaling : number)
    (raw : number) : number :=
  if String.eqb method "ratio" then
    if Js.is_zero (rawMean stats) then raw
    else Js.mul raw (Js.div (targetMeanPoints stats) (rawMean stats))
  else
    Js.add (targetMeanPoints stats)
           (Js.mul sdScaling (Js.sub raw (rawMean stats))).

(** [Math.min(maxMarks, Math.max(0, adjusted))] *)
Definition clamp (maxMarks adjusted : number) : number :=
  Js.Math_min maxMarks (Js.Math_max (Num 0) adjusted).

(** The clamped, not yet rounded value of [adjusted]. *)
Definition clamped (stats : Stats) (method : string)
    (sdScaling maxMarks : number) (raw : number) : number :=
  clamp maxMarks (formula stats method sdScaling raw).

Definition normalize (stats : Stats) (method : string)
    (sdScaling maxMarks : number) (student : Student) : Normalized :=
  let raw := Js.parseFloat (raw student) in
  if Js.number_isNaN raw then
    {| student := student; adjusted := Num 0 |}
  else
    let adjusted := clamped stats method sdScaling maxMarks raw in
    {| student := student; adjusted := Js.parseFloat_toFixed2 adjusted |}.

Definition normalizedData (students : list Student) (stats : Stats)
    (method : string) (sdScaling maxMarks : number) : list Normalized :=
  map (normalize stats method sdScaling maxMarks) students.

(** ** Handlers *)

(** [Math.max(...ids)] of a non-empty list. *)
Definition Math_max_ids (first : Z) (rest : list Z) : Z :=
  fold_left Z.max rest first.

Definition newId (students : list Student) : Z :=
  match map id students with
  | [] => 1
  | i :: ids => Math_max_ids i ids + 1
  end.

Definition decimal (n : Z) : string := NilZero.string_of_int (Z.to_int n).

Definition addStudent (students : list Student) : list Student :=
  let newId := newId students in
  students ++ [ {| id := newId;
                   name := ("Student " ++ decimal newId)%string;
                   raw := VNumber (Num 0) |} ].

Definition removeStudent (students : list Student) (i : Z) : list Student :=
  filter (fun s => negb (Z.eqb (id s) i)) students.

(** A field name together with a value of the field's type: the
    computed key of [{ ...s, [field]: value }]. *)
Inductive field_value : Type :=
| set_id (v : Z)
| set_name (v : string)
| set_raw (v : value).

Definition with_field (s : Student) (fv : field_value) : Student :=
  match fv with
  | set_id v => {| id := v; name := name s; raw := raw s |}
  | set_name v => {| id := id s; name := v; raw := raw s |}
  | set_raw v => {| id := id s; name := name s; raw := v |}
  end.

Definition updateStudent (students : list Student) (i : Z)
    (fv : field_value) : list Student :=
  map (fun s => if Z.eqb (id s) i then with_field s fv else s) students.

(** The initial state of the component. *)
Definition initialStudents : list Student :=
  [ {| id := 1; name := "Student A"; raw := VNumber (Num 65) |};
    {| id := 2; name := "Student B"; raw := VNumber (Num 55) |};
    {| id := 3; name := "Student C"; raw := VNumber (Num 82) |};
    {| id := 4; name := "Student D"; raw := VNumber (Num 40) |};
    {| id := 5; name := "Student E"; raw := VNumber (Num 70) |} ].

Definition studentA : Student :=
  {| id := 1; name := "Student A"; raw := VNumber (Num 65) |}.

Definition studentB : Student :=
  {| id := 2; name := "Student B"; raw := VNumber (Num 55) |}.

(** The statistics of the initial state: [maxMarks = 100],
    [targetMeanPercent = 75]. *)
Definition initialStats : Stats := stats initialStudents (Num 100) (Num 75).

(** A table whose two raw cells were cleared. *)
Definition blankStudents : list Student :=
  [ {| id := 1; name := "Student A"; raw := VEmpty |};
    {| id := 2; name := "Student B"; raw := VEmpty |} ].

(** ** Reference notions and sample tables *)

(** The arithmetic mean of the specification, over exact rationals. *)
Definition Qsum (l : list Q) : Q := fold_right Qplus 0%Q l.

Definition Qcount (l : list Q) : Q := inject_Z (Z.of_nat (length l)).

Definition arithmetic_mean (l : list Q) : Q := (Qsum l / Qcount l)%Q.

(** A student whose raw score is the finite number [q]. *)
Definition has_score (s : Student) (q : Q) : Prop := raw s = VNumber (Num q).







(** The user's list operations on the table. *)
Inductive action : Type :=
| Add
| Remove (i : Z).

Definition step (students : list Student) (a : action) : list Student :=
  match a with
  | Add => addStudent students
  | Remove i => removeStudent students i
  end.

Definition run (students : list Student) (acts : list action)
    : list Student :=
  fold_left step acts students.

(** Non-reuse as the specification words it: once the id [i] of the
    table has been removed, no add of any later sequence of operations
    assigns [i]. *)
Definition ids_not_reused (students : list Student) : Prop :=
  forall (i : Z) (acts : list action),
    In i (map id students) ->
    newId (run (removeStudent students i) acts) <> i.

(** ** Display and export *)

Definition newline : string := String (Ascii.ascii_of_nat 10) EmptyString.

(** [Array.prototype.join] on an array of strings. *)
Fixpoint join (sep : string) (l : list string) : string :=
  match l with
  | [] => EmptyString
  | x :: rest =>
      match rest with
      | [] => x
      | _ :: _ => (x ++ sep ++ join sep rest)%string
      end
  end.

(** The text of a [raw] cell when [join] prints it: the empty string
    stays empty, a number goes through the number-to-string conversion
    [ToString] of the language, which is a parameter here. *)
Definition raw_text (ToString : number -> string) (v : value) : string :=
  match v with
  | VNumber x => ToString x
  | VEmpty => EmptyString
  end.

Definition headers : list string :=
  ["Student Name"; "Raw Score"; "Adjusted Score"]%string.

(** [normalizedData.map(s => [s.name, s.raw, s.adjusted])], each cell
    as [join] prints it. *)
Definition rows (ToString : number -> string)
    (normalizedData : list Normalized) : list (list string) :=
  map (fun s : Normalized =>
         [name s; raw_text ToString (raw s); ToString (adjusted s)])
      normalizedData.

(** The string [csvContent] of [downloadCSV], before [encodeURI] and the
    download link. *)
Definition csvContent (ToString : number -> string)
    (normalizedData : list Normalized) : string :=
  ((("data:text/csv;charset=utf-8," ++ join "," headers) ++ newline)
   ++ join newline (map (join ",") (rows ToString normalizedData)))%string.

(** The part of [csvContent] after the data-URI prefix: the text of the
    exported file. *)
Definition csvText (ToString : number -> string)
    (normalizedData : list Normalized) : string :=
  (join "," headers ++ newline
   ++ join newline (map (join ",") (rows ToString normalizedData)))%string.

(** [String.prototype.split] on a one-character separator, used to read
    the exported text back. *)
Fixpoint split_on (c : Ascii.ascii) (s : string) : list string :=
  match s with
  | EmptyString => [EmptyString]
  | String a rest =>
      if Ascii.eqb a c then EmptyString :: split_on c rest
      else match split_on c rest with
           | [] => [String a EmptyString]
           | x :: r => String a x :: r
           end
  end.

(** Number of occurrences of a character. *)
Fixpoint occurrences (c : Ascii.ascii) (s : string) : nat :=
  match s with
  | EmptyString => 0
  | String a rest => (if Ascii.eqb a c then 1 else 0) + occurrences c rest
  end.

Definition comma : Ascii.ascii := Ascii.ascii_of_nat 44.

Definition linefeed : Ascii.ascii := Ascii.ascii_of_nat 10.

(** A cell text without a comma and without a line feed. *)
Definition plain (s : string) : Prop :=
  occurrences comma s = 0%nat /\ occurrences linefeed s = 0%nat.

(** Every cell of the exported row of [r] is plain. *)
Definition plain_row (ToString : number -> string) (r : Normalized) : Prop :=
  plain (name r) /\ plain (raw_text ToString (raw r)) /\
  plain (ToString (adjusted r)).

(** A number printer for examples: integers in decimal, [NaN] as the
    language prints it. *)
Definition print_integer (x : number) : string :=
  match x with
  | Num q => decimal (Qfloor q)
  | NaN => "NaN"
  end.

(** ** The edits of the table *)

(** The four ways the rendered table calls the handlers: the "Add Row"
    button, the delete button of a row, and the name and raw inputs of a
    row. *)
Inductive edit : Type :=
| AddRow
| RemoveRow (i : Z)
| EditName (i : Z) (v : string)
| EditRaw (i : Z) (v : value).

Definition apply_edit (students : list Student) (e : edit) : list Student :=
  match e with
  | AddRow => addStudent students
  | RemoveRow i => removeStudent students i
  | EditName i v => updateStudent students i (set_name v)
  | EditRaw i v => updateStudent students i (set_raw v)
  end.

Definition apply_edits (students : list Student) (es : list edit)
    : list Student :=
  fold_left apply_edit es students.

(** A field other than the id. *)
Definition keeps_id (fv : field_value) : Prop :=
  match fv with
  | set_id _ => False
  | _ => True
  end.

(** * The engine over binary64 numbers *)

(** The same code with the numbers of the language: IEEE 754 binary64
    values, as specified by [SpecFloat] with precision [53] and maximal
    exponent [1024].  Every arithmetic operator rounds to nearest, ties
    to even, overflows to an infinity and yields [NaN] where the
    language does. *)
Module Binary64.
Import SpecFloat.

Definition number : Type := spec_float.

Definition prec : Z := 53.
Definition emax : Z := 1024.

Definition NaN : number := S754_nan.

(** The literal [0]. *)
Definition zero : number := S754_zero false.

(** An integer literal, and the conversion of a list length. *)
Definition of_Z (z : Z) : number := binary_normalize prec emax z 0 false.

Definition of_nat (n : nat) : number := of_Z (Z.of_nat n).

Definition add : number -> number -> number := SFadd prec emax.
Definition sub : number -> number -> number := SFsub prec emax.
Definition mul : number -> number -> number := SFmul prec emax.
Definition div : number -> number -> number := SFdiv prec emax.

(** Unary minus. *)
Definition neg : number -> number := SFopp.

(** The decimal literal with the digits [n] and [k] fraction digits,
    [n / 10^k]: the division rounds the quotient of two integers to the
    nearest number, which is the value of the literal when both integers
    are represented exactly ([n < 2^53], [k <= 22]). *)
Definition decimal_literal (n k : Z) : number := div (of_Z n) (of_Z (10 ^ k)).

(** [Math.pow(x, 2)], taken as the rounded product [x * x]. *)
Definition pow2 (x : number) : number := mul x x.

(** [Math.sqrt], taken as the correctly rounded square root. *)
Definition Math_sqrt : number -> number := SFsqrt prec emax.

(** [x <= y], [x < y] and [x === y] on numbers: false when an operand is
    [NaN]; the two zeros are equal. *)
Definition le (x y : number) : bool := SFleb x y.
Definition lt (x y : number) : bool := SFltb x y.
Definition strict_equal (x y : number) : bool := SFeqb x y.

(** [x === 0] *)
Definition is_zero (x : number) : bool := strict_equal x zero.

(** [Math.max(x, y)]: [NaN] if an argument is [NaN]; [+0] is larger
    than [-0]. *)
Definition Math_max (x y : number) : number :=
  match SFcompare x y with
  | None => NaN
  | Some Lt => y
  | Some Gt => x
  | Some Eq =>
      match x, y with
      | S754_zero sx, S754_zero sy => S754_zero (sx && sy)
      | _, _ => x
      end
  end.

(** [Math.min(x, y)]: [NaN] if an argument is [NaN]; [-0] is smaller
    than [+0]. *)
Definition Math_min (x y : number) : number :=
  match SFcompare x y with
  | None => NaN
  | Some Lt => x
  | Some Gt => y
  | Some Eq =>
      match x, y with
      | S754_zero sx, S754_zero sy => S754_zero (sx || sy)
      | _, _ => x
      end
  end.

(** The number test on a number. *)
Definition number_isNaN (x : number) : bool :=
  match x with
  | S754_nan => true
  | _ => false
  end.

(** The value of the [raw] field.  [VNumber x] is the number [x] of an
    initial or added row, or the text of an [<input type="number">]
    that denotes [x], on which [Number] and [parseFloat] agree;
    [VEmpty] is the empty string of a cleared input. *)
Inductive value : Type :=
| VNumber (x : number)
| VEmpty.

(** Global [isNaN(v)]: [Number('')] is [0]. *)
Definition isNaN (v : value) : bool :=
  match v with
  | VNumber x => number_isNaN x
  | VEmpty => false
  end.

(** [parseFloat(v)]: [parseFloat('')] is [NaN]. *)
Definition parseFloat (v : value) : number :=
  match v with
  | VNumber x => x
  | VEmpty => NaN
  end.

(** [v !== ''] *)
Definition not_empty_string (v : value) : bool :=
  match v with
  | VNumber _ => true
  | VEmpty => false
  end.

(** The digits that [toFixed(2)] prints for the magnitude [m * 2^e],
    read as an integer number of hundredths: "Let n be an integer for
    which n / 10^f - x is as close to zero as possible.  If there are
    two such n, pick the larger n." *)
Definition toFixed2_digits (m : positive) (e : Z) : Z :=
  match e with
  | Z0 => 100 * Zpos m
  | Zpos p => 100 * Zpos m * 2 ^ Zpos p
  | Zneg p => (200 * Zpos m + 2 ^ Zpos p) / 2 ^ (Zpos p + 1)
  end.

(** [parseFloat] of the text that [toFixed(2)] writes for the sign [s]
    and the digits [n]: the number nearest to [n / 100]; the text
    ["-0.00"] reads as [-0]. *)
Definition parse_hundredths (s : bool) (n : Z) : number :=
  match n with
  | Zpos p => div (S754_finite s p 0) (of_Z 100)
  | _ => S754_zero s
  end.

(** [parseFloat(x.toFixed(2))].  [toFixed] writes ["NaN"],
    ["Infinity"] and a magnitude from [10^21] on as [ToString] does,
    and [parseFloat] reads these back unchanged; [(-0).toFixed(2)] is
    ["0.00"]. *)
Definition parseFloat_toFixed2 (x : number) : number :=
  match x with
  | S754_finite s m e =>
      if le (of_Z (10 ^ 21)) (S754_finite false m e) then x
      else parse_hundredths s (toFixed2_digits m e)
  | S754_zero _ => zero
  | _ => x
  end.

Record Student : Type := mkStudent {
  id : Z;
  name : string;
  raw : value
}.

Record Stats : Type := mkStats {
  rawMean : number;
  rawSD : number;
  targetMeanPoints : number
}.

Record Normalized : Type := mkNormalized {
  student :> Student;
  adjusted : number
}.

Definition valid (s : Student) : bool :=
  not_empty_string (raw s) && negb (isNaN (raw s)).

Definition validScores (students : list Student) : list number :=
  map (fun s => parseFloat (raw s)) (filter valid students).

Definition stats (students : list Student)
    (maxMarks targetMeanPercent : number) : Stats :=
  let validScores := validScores students in
  let count := length validScores in
  if Nat.eqb count 0 then
    {| rawMean := zero; rawSD := zero; targetMeanPoints := zero |}
  else
    let sum := fold_left add validScores zero in
    let rawMean := div sum (of_nat count) in
    let squareDiffs :=
      map (fun val => pow2 (sub val rawMean)) validScores in
    let variance :=
      div (fold_left add squareDiffs zero) (of_nat count) in
    let rawSD := Math_sqrt variance in
    let targetMeanPoints :=
      mul (div targetMeanPercent (of_Z 100)) maxMarks in
    {| rawMean := rawMean; rawSD := rawSD;
       targetMeanPoints := targetMeanPoints |}.

Definition formula (stats : Stats) (method : string) (sdScaling : number)
    (raw : number) : number :=
  if String.eqb method "ratio" then
    if is_zero (rawMean stats) then raw
    else mul raw (div (targetMeanPoints stats) (rawMean stats))
  else
    add (targetMeanPoints stats) (mul sdScaling (sub raw (rawMean stats))).

(** [Math.min(maxMarks, Math.max(0, adjusted))] *)
Definition clamp (maxMarks adjusted : number) : number :=
  Math_min maxMarks (Math_max zero adjusted).

(** The clamped, not yet rounded value of [adjusted]. *)
Definition clamped (stats : Stats) (method : string)
    (sdScaling maxMarks : number) (raw : number) : number :=
  clamp maxMarks (formula stats method sdScaling raw).

Definition normalize (stats : Stats) (method : string)
    (sdScaling maxMarks : number) (student : Student) : Normalized :=
  let raw := parseFloat (raw student) in
  if number_isNaN raw then
    {| student := student; adjusted := zero |}
  else
    let adjusted := clamped stats method sdScaling maxMarks raw in
    {| student := student; adjusted := parseFloat_toFixed2 adjusted |}.

Definition normalizedData (students : list Student) (stats : Stats)
    (method : string) (sdScaling maxMarks : number) : list Normalized :=
  map (normalize stats method sdScaling maxMarks) students.

(** ** Reference notions and sample tables *)

(** The exact value of a finite number: the magnitude [m * 2^e] with
    its sign. *)
Definition magnitude (m : positive) (e : Z) : Q :=
  (inject_Z (Zpos m) * 2 ^ e)%Q.

Definition exact (x : number) : option Q :=
  match x with
  | S754_zero _ => Some 0%Q
  | S754_finite s m e =>
      Some (if s then (- magnitude m e)%Q else magnitude m e)
  | _ => None
  end.



(** A student whose raw score is the number [x]. *)
Definition has_score (s : Student) (x : number) : Prop :=
  raw s = VNumber x /\ number_isNaN x = false.

(** Mean and population standard deviation of a list of numbers, every
    operation being the binary64 one: the scores are added from left to
    right, starting from [0]. *)
Definition total (l : list number) : number := fold_left add l zero.

Definition count (l : list number) : number := of_nat (length l).

Definition mean (l : list number) : number := div (total l) (count l).

Definition squared_deviation (m x : number) : number :=
  mul (sub x m) (sub x m).

Definition population_sd (l : list number) : number :=
  Math_sqrt (div (total (map (squared_deviation (mean l)) l)) (count l)).

(** The same with the divisor [count - 1], for comparison. *)
Definition sample_sd (l : list number) : number :=
  Math_sqrt (div (total (map (squared_deviation (mean l)) l))
                 (sub (count l) (of_Z 1))).

(** The mean as the specification words it: the value of [m] is the
    sum of the values of the scores divided by their count. *)
Definition is_arithmetic_mean (m : number) (l : list number) : Prop :=
  exists (q : Q) (qs : list Q),
    exact m = Some q /\
    Forall2 (fun x v => exact x = Some v) l qs /\
    (q == arithmetic_mean qs)%Q.

(** A table with the given raw scores, numbered from [i]. *)
Fixpoint table (i : Z) (raws : list number) : list Student :=
  match raws with
  | [] => []
  | x :: rest =>
      {| id := i; name := "Student"; raw := VNumber x |} :: table (i + 1) rest
  end.

(** The adjusted scores of a table of raw scores. *)
Definition adjusted_scores (raws : list number)
    (maxMarks targetMeanPercent : number) (method : string)
    (sdScaling : number) : list number :=
  let students := table 1 raws in
  map adjusted
    (normalizedData students (stats students maxMarks targetMeanPercent)
       method sdScaling maxMarks).

(** The initial state of the component. *)
Definition initialStudents : list Student :=
  [ {| id := 1; name := "Student A"; raw := VNumber (of_Z 65) |};
    {| id := 2; name := "Student B"; raw := VNumber (of_Z 55) |};
    {| id := 3; name := "Student C"; raw := VNumber (of_Z 82) |};
    {| id := 4; name := "Student D"; raw := VNumber (of_Z 40) |};
    {| id := 5; name := "Student E"; raw := VNumber (of_Z 70) |} ].

Definition studentA : Student :=
  {| id := 1; name := "Student A"; raw := VNumber (of_Z 65) |}.

Definition studentB : Student :=
  {| id := 2; name := "Student B"; raw := VNumber (of_Z 55) |}.

Definition studentC : Student :=
  {| id := 3; name := "Student C"; raw := VNumber (of_Z 82) |}.

Definition initialScores : list number :=
  [of_Z 65; of_Z 55; of_Z 82; of_Z 40; of_Z 70].

(** The statistics of the initial state: [maxMarks = 100],
    [targetMeanPercent = 75]. *)
Definition initialStats : Stats :=
  stats initialStudents (of_Z 100) (of_Z 75).


(** [0.1], [0.2] and [-0.3]. *)
Definition tenthsScores : list number :=
  [decimal_literal 1 1; decimal_literal 2 1; neg (decimal_literal 3 1)].

(** [1e155] and [-1e155]. *)
Definition wideScores : list number :=
  [of_Z (10 ^ 155); neg (of_Z (10 ^ 155))].

(** Three scores with mean [5/3]. *)
Definition thirdsScores : list number := [of_Z 1; of_Z 2; of_Z 2].

Definition thirdsStats : Stats :=
  stats (table 1 thirdsScores) (of_Z 100) (of_Z 75).



(** [50.004] and [50]. *)
Definition closeScores : list number := [decimal_literal 50004 3; of_Z 50].

(** [0.123] and [-0.123]: their mean is zero. *)
Definition oppositeScores : list number :=
  [decimal_literal 123 3; neg (decimal_literal 123 3)].

Definition oppositeStats : Stats :=
  stats (table 1 oppositeScores) (of_Z 100) (of_Z 75).

(** The row of a table of which only the raw score matters. *)
Definition scored (x : number) : Student :=
  {| id := 1; name := "Student"; raw := VNumber x |}.


End Binary64.

(** * Properties of the engine over binary64 numbers *)

(** ** Comparisons, signs and the clamp *)

Section Comparisons.
Import SpecFloat Binary64.




Lemma SFcompare_NaN (x y : number) :
  SFcompare x y = None -> number_isNaN x = true \/ number_isNaN y = true.
Proof.
  destruct x, y; simpl; intros H; try discriminate; auto.
Qed.



End Comparisons.

Section Signs.
Import SpecFloat Binary64.
Local Open Scope Z_scope.











Lemma parseFloat_toFixed2_NaN (x : number) :
  number_isNaN x = true -> parseFloat_toFixed2 x = NaN.
Proof. destruct x; intros H; try discriminate H; reflexivity. Qed.

End Signs.

Section Clamp64.
Import SpecFloat Binary64.

Lemma Math_max_NaN (x y : number) :
  number_isNaN y = true -> Math_max x y = NaN.
Proof.
  destruct y; simpl; intros H; try discriminate.
  unfold Math_max. destruct x; reflexivity.
Qed.

Lemma Math_min_NaN (x y : number) :
  number_isNaN x = true \/ number_isNaN y = true -> Math_min x y = NaN.
Proof.
  unfold Math_min.
  intros [H | H]; [destruct x | destruct y]; simpl in H; try discriminate;
    [reflexivity | destruct x; reflexivity].
Qed.



(** At or above [maxMarks] the clamp gives [maxMarks], at or below [0]
    it gives a zero; the sign of a zero is lost in the rounding. *)
Lemma clamp_top_value (m y : number) :
  le zero m = true -> le m y = true ->
  clamp m y = m \/
  exists s s' : bool, clamp m y = S754_zero s /\ m = S754_zero s'.
Proof.
  unfold clamp, Math_min, Math_max, le, SFleb, zero.
  destruct m as [[|]|[|]| |[|] mm em], y as [[|]|[|]| |[|] my ey];
    simpl; intros Hm Hy; try discriminate; auto;
    try (right; eexists; eexists; split; reflexivity).
  destruct (em ?= ey)%Z; try discriminate; auto.
  destruct (Pos.compare_cont Eq mm my); try discriminate; auto.
Qed.

Lemma clamp_bottom_value (m y : number) :
  le zero m = true -> le y zero = true ->
  exists s : bool, clamp m y = S754_zero s.
Proof.
  unfold clamp, Math_min, Math_max, le, SFleb, zero.
  destruct m as [[|]|[|]| |[|] mm em], y as [[|]|[|]| |[|] my ey];
    simpl; intros Hm Hy; try discriminate; eexists; reflexivity.
Qed.

Lemma clamp_top (m y : number) :
  le zero m = true -> le m y = true ->
  parseFloat_toFixed2 (clamp m y) = parseFloat_toFixed2 m.
Proof.
  intros Hm Hy.
  destruct (clamp_top_value m y Hm Hy) as [-> | (s & s' & -> & ->)];
    reflexivity.
Qed.

Lemma clamp_bottom (m y : number) :
  le zero m = true -> le y zero = true ->
  parseFloat_toFixed2 (clamp m y) = zero.
Proof.
  intros Hm Hy. destruct (clamp_bottom_value m y Hm Hy) as [s ->].
  reflexivity.
Qed.

End Clamp64.

(** ** The digits of [toFixed(2)] *)

Section Digits.
Import SpecFloat Binary64.
Local Open Scope Q_scope.

Lemma half_up_quotient (a d n : Z) :
  (0 < d)%Z -> n = ((2 * a + d) / (2 * d))%Z ->
  inject_Z n - (1 # 2) <= inject_Z a / inject_Z d < inject_Z n + (1 # 2).
Proof.
  intros Hd Hn.
  assert (Hd' : 0 < inject_Z d) by (change 0 with (inject_Z 0); rewrite <- Zlt_Qlt; exact Hd).
  pose proof (Z.div_mod (2 * a + d) (2 * d) ltac:(lia)) as E.
  pose proof (Z.mod_pos_bound (2 * a + d) (2 * d) ltac:(lia)) as B.
  rewrite <- Hn in E.
  assert (L : (2 * n * d - d <= 2 * a)%Z) by lia.
  assert (U : (2 * a < 2 * n * d + d)%Z) by lia.
  rewrite Zle_Qle in L. rewrite Zlt_Qlt in U.
  unfold Z.sub in L.
  rewrite !inject_Z_plus, ?inject_Z_opp, !inject_Z_mult in L.
  rewrite !inject_Z_plus, !inject_Z_mult in U.
  change (inject_Z 2) with 2 in *.
  set (x := inject_Z n * inject_Z d).
  assert (L' : 2 * x - inject_Z d <= 2 * inject_Z a)
    by (unfold x; ring_simplify; ring_simplify in L; exact L).
  assert (U' : 2 * inject_Z a < 2 * x + inject_Z d)
    by (unfold x; ring_simplify; ring_simplify in U; exact U).
  split.
  - apply Qle_shift_div_l; [exact Hd'|].
    setoid_replace ((inject_Z n - (1 # 2)) * inject_Z d)
      with (x - (1 # 2) * inject_Z d) by (unfold x; ring).
    lra.
  - apply Qlt_shift_div_r; [exact Hd'|].
    setoid_replace ((inject_Z n + (1 # 2)) * inject_Z d)
      with (x + (1 # 2) * inject_Z d) by (unfold x; ring).
    lra.
Qed.

Lemma Qpower_2_pos (p : positive) :
  2 ^ Zpos p == inject_Z (2 ^ Zpos p).
Proof.
  rewrite (Zpower_Qpower 2 (Zpos p)) by lia. reflexivity.
Qed.

Lemma magnitude_neg (m p : positive) :
  100 * magnitude m (Zneg p)
  == inject_Z (100 * Zpos m) / inject_Z (2 ^ Zpos p).
Proof.
  unfold magnitude.
  change (2 ^ Zneg p) with (/ (2 ^ Zpos p)).
  rewrite Qpower_2_pos, inject_Z_mult. unfold Qdiv.
  change (inject_Z 100) with 100. ring.
Qed.

(** The integer of hundredths that [toFixed(2)] prints is the one
    nearest to a hundred times the magnitude, the larger one when two
    are equally near. *)
Lemma toFixed2_digits_nearest (m : positive) (e : Z) :
  (0 <= toFixed2_digits m e)%Z /\
  inject_Z (toFixed2_digits m e) - (1 # 2) <= 100 * magnitude m e
    < inject_Z (toFixed2_digits m e) + (1 # 2).
Proof.
  destruct e as [|p|p]; unfold toFixed2_digits.
  - split; [lia|]. unfold magnitude. change (2 ^ 0) with 1.
    rewrite inject_Z_mult. change (inject_Z 100) with 100.
    split; lra.
  - split; [apply Z.mul_nonneg_nonneg; [lia | apply Z.pow_nonneg; lia]|].
    unfold magnitude. rewrite Qpower_2_pos, !inject_Z_mult.
    change (inject_Z 100) with 100.
    set (x := inject_Z (Z.pos m) * inject_Z (2 ^ Z.pos p)).
    setoid_replace (100 * inject_Z (Z.pos m) * inject_Z (2 ^ Z.pos p))
      with (100 * x) by (unfold x; ring).
    split; lra.
  - assert (Hd : (0 < 2 ^ Z.pos p)%Z) by (apply Z.pow_pos_nonneg; lia).
    assert (E : (2 ^ (Z.pos p + 1) = 2 * 2 ^ Z.pos p)%Z)
      by (rewrite Z.pow_add_r by lia; lia).
    split.
    + apply Z.div_pos; lia.
    + rewrite magnitude_neg. apply half_up_quotient; [exact Hd|].
      rewrite E. f_equal; lia.
Qed.

End Digits.

(** ** Statistics and normalization *)

Section Statistics64.
Import SpecFloat Binary64.


Lemma stats_of_valid (students : list Student) (maxMarks percent : number) :
  validScores students <> [] ->
  stats students maxMarks percent
  = {| rawMean := mean (validScores students);
       rawSD := population_sd (validScores students);
       targetMeanPoints := mul (div percent (of_Z 100)) maxMarks |}.
Proof.
  intros H. unfold stats.
  destruct (validScores students) as [|x l] eqn:E; [contradiction|].
  reflexivity.
Qed.

Lemma table_has_score (raws : list number) (i : Z) :
  Forall (fun x => number_isNaN x = false) raws ->
  Forall2 has_score (table i raws) raws.
Proof.
  intros H. revert i. induction H as [|x l Hx _ IH]; intros i; simpl.
  - constructor.
  - constructor; [split; [reflexivity | exact Hx] | apply IH].
Qed.


(** Without overflow the mean is still a rounded one: for the scores
    [0.1], [0.2] and [-0.3] the sum [0.1 + 0.2] is rounded before
    [0.3] is subtracted, and [rawMean] is [1.850371707708594e-17],
    about twice the mean of the three values. *)
Example mean_rounding :
  rawMean (stats (table 1 tenthsScores) (of_Z 100) (of_Z 75))
  = S754_finite false 6004799503160661 (-108) /\
  ~ is_arithmetic_mean (S754_finite false 6004799503160661 (-108))
      tenthsScores.
Proof.
  split; [vm_compute; reflexivity|].
  intros (q & qs & Hq & Hqs & E).
  injection Hq as <-.
  unfold tenthsScores in Hqs.
  inversion Hqs as [|x1 v1 l1 r1 H1 T1]; subst; clear Hqs.
  inversion T1 as [|x2 v2 l2 r2 H2 T2]; subst; clear T1.
  inversion T2 as [|x3 v3 l3 r3 H3 T3]; subst; clear T2.
  inversion T3; subst; clear T3.
  vm_compute in H1, H2, H3.
  injection H1 as <-. injection H2 as <-. injection H3 as <-.
  vm_compute in E. discriminate.
Qed.

(** The standard deviation overflows sooner: for [1e155] and [-1e155],
    whose population standard deviation is [1e155], the squares
    overflow and [rawSD] is [Infinity]. *)
Example sd_overflow :
  rawSD (stats (table 1 wideScores) (of_Z 100) (of_Z 75))
  = S754_infinity false.
Proof. vm_compute. reflexivity. Qed.



(** The initial table: the mean is [62.4], the standard deviation is
    [14.178857499812882], the population one, not the sample one. *)
Example initial_mean_and_sd :
  mean initialScores = decimal_literal 624 1 /\
  population_sd initialScores = S754_finite false 7981987169087082 (-49) /\
  strict_equal (population_sd initialScores) (sample_sd initialScores)
  = false.
Proof. vm_compute. repeat split. Qed.

End Statistics64.

Section Normalization64.
Import SpecFloat Binary64.

Lemma normalize_adjusted (st : Stats) (method : string)
    (sdScaling maxMarks : number) (s : Student) :
  number_isNaN (parseFloat (raw s)) = false ->
  adjusted (normalize st method sdScaling maxMarks s)
  = parseFloat_toFixed2
      (clamped st method sdScaling maxMarks (parseFloat (raw s))).
Proof. intros H. unfold normalize. rewrite H. reflexivity. Qed.




(** The same with the initial configuration and the raw scores [0] and
    [1e-307], which is [5060056332682765 * 2^-1072]. *)
Example adjusted_NaN_default_configuration :
  adjusted_scores [of_Z 0; S754_finite false 5060056332682765 (-1072)]
    (of_Z 100) (of_Z 75) "ratio" (of_Z 1)
  = [NaN; of_Z 100].
Proof. vm_compute. reflexivity. Qed.

(** The rounding comes after the clamp: with [maxMarks = 99.999] and
    [sdScaling = 1.5] the third row of the initial table is clamped to
    [99.999] and returned as [100]. *)
Example adjusted_above_maxMarks :
  nth_error
    (map adjusted
       (normalizedData initialStudents
          (stats initialStudents (decimal_literal 99999 3) (of_Z 75))
          "robust" (decimal_literal 15 1) (decimal_literal 99999 3))) 2
  = Some (of_Z 100) /\
  lt (decimal_literal 99999 3) (of_Z 100) = true.
Proof. vm_compute. split; reflexivity. Qed.

(** [maxMarks] is not validated: a negative one is returned as the
    adjusted score of every scored row, and a cleared one gives [NaN]. *)
Example adjusted_other_maxMarks :
  adjusted (normalize initialStats "robust" (of_Z 1) (neg (of_Z 10)) studentC)
  = neg (of_Z 10) /\
  adjusted (normalize initialStats "robust" (of_Z 1) NaN studentC) = NaN.
Proof. vm_compute. split; reflexivity. Qed.



(** The initial table under the initial configuration. *)
Example initial_adjusted :
  map adjusted
    (normalizedData initialStudents initialStats "robust" (of_Z 1) (of_Z 100))
  = [decimal_literal 776 1; decimal_literal 676 1; decimal_literal 946 1;
     decimal_literal 526 1; decimal_literal 826 1].
Proof. vm_compute. reflexivity. Qed.

(** C3 (as stated) fails.  For the raw scores [1], [2], [2] the clamped
    value of the first row is [74.33333333333333]; the engine returns
    [74.33]. *)
Lemma adjusted_not_precise_counterexample :
  let st := thirdsStats in
  clamped st "robust" (of_Z 1) (of_Z 100) (of_Z 1)
  = S754_finite false 5230743317206357 (-46) /\
  map adjusted
    (normalizedData (table 1 thirdsScores) st "robust" (of_Z 1) (of_Z 100))
  = [decimal_literal 7433 2; decimal_literal 7533 2; decimal_literal 7533 2] /\
  strict_equal (decimal_literal 7433 2)
    (clamped st "robust" (of_Z 1) (of_Z 100) (of_Z 1)) = false.
Proof. vm_compute. repeat split. Qed.

(** C3 (amended).  The engine itself rounds: the adjusted value it
    returns is [parseFloat(c.toFixed(2))] of the clamped value [c].  For
    a finite [c] of magnitude below [10^21] this is the binary64 number
    read back from the decimal [n / 100], where [n] is the integer
    nearest to a hundred times the magnitude of [c], the larger one on a
    tie; a zero gives [0]; an infinity, [NaN] or a magnitude from
    [10^21] on is returned as it is. *)
Theorem adjusted_is_rounded (st : Stats) (method : string)
    (sdScaling maxMarks : number) (s : Student) :
  number_isNaN (parseFloat (raw s)) = false ->
  adjusted (normalize st method sdScaling maxMarks s)
  = parseFloat_toFixed2
      (clamped st method sdScaling maxMarks (parseFloat (raw s))) /\
  (forall (sg : bool) (m : positive) (e : Z),
     clamped st method sdScaling maxMarks (parseFloat (raw s))
     = S754_finite sg m e ->
     le (of_Z (10 ^ 21)) (S754_finite false m e) = false ->
     exists n : Z,
       (0 <= n)%Z /\
       (inject_Z n - (1 # 2) <= 100 * magnitude m e < inject_Z n + (1 # 2))%Q /\
       adjusted (normalize st method sdScaling maxMarks s)
       = parse_hundredths sg n) /\
  (forall sg : bool,
     clamped st method sdScaling maxMarks (parseFloat (raw s)) = S754_zero sg ->
     adjusted (normalize st method sdScaling maxMarks s) = zero) /\
  (forall x : number,
     clamped st method sdScaling maxMarks (parseFloat (raw s)) = x ->
     match x with
     | S754_infinity _ | S754_nan => True
     | S754_finite _ m e => le (of_Z (10 ^ 21)) (S754_finite false m e) = true
     | S754_zero _ => False
     end ->
     adjusted (normalize st method sdScaling maxMarks s) = x).
Proof.
  intros Hr. rewrite normalize_adjusted by exact Hr.
  split; [reflexivity|]. split; [|split].
  - intros sg m e -> Hs. exists (toFixed2_digits m e).
    destruct (toFixed2_digits_nearest m e) as [H0 H1].
    split; [exact H0|]. split; [exact H1|].
    unfold parseFloat_toFixed2. rewrite Hs. reflexivity.
  - intros sg ->. reflexivity.
  - intros x -> Hx. destruct x as [sg|sg| |sg m e]; try reflexivity.
    + contradiction.
    + unfold parseFloat_toFixed2. rewrite Hx. reflexivity.
Qed.

Lemma adjusted_is_rounded_witness :
  let st := thirdsStats in
  let s := scored (of_Z 1) in
  number_isNaN (parseFloat (raw s)) = false /\
  adjusted (normalize st "robust" (of_Z 1) (of_Z 100) s)
  = parseFloat_toFixed2
      (clamped st "robust" (of_Z 1) (of_Z 100) (parseFloat (raw s))) /\
  exists n : Z,
    (0 <= n)%Z /\
    (inject_Z n - (1 # 2) <= 100 * magnitude 5230743317206357 (-46)
     < inject_Z n + (1 # 2))%Q /\
    adjusted (normalize st "robust" (of_Z 1) (of_Z 100) s)
    = parse_hundredths false n.
Proof.
  intros st s.
  assert (H : number_isNaN (parseFloat (raw s)) = false) by reflexivity.
  split; [exact H|].
  destruct (adjusted_is_rounded st "robust" (of_Z 1) (of_Z 100) s H)
    as (E & D & _).
  split; [exact E|].
  apply (D false 5230743317206357%positive (-46)%Z); vm_compute; reflexivity.
Defined.

(** The tie is one of the binary value, not of the decimal literal:
    [1.005] denotes a number below [1.005] and is printed as [1.00],
    [0.005] denotes a number above [0.005] and is printed as [0.01]. *)
Example toFixed_ties :
  parseFloat_toFixed2 (decimal_literal 1005 3) = of_Z 1 /\
  parseFloat_toFixed2 (decimal_literal 5 3) = decimal_literal 1 2 /\
  parseFloat_toFixed2 (decimal_literal 125 3) = decimal_literal 13 2 /\
  parseFloat_toFixed2 (neg (decimal_literal 125 3))
  = neg (decimal_literal 13 2) /\
  parseFloat_toFixed2 (neg (decimal_literal 1 3)) = S754_zero true /\
  parseFloat_toFixed2 (S754_zero true) = zero /\
  parseFloat_toFixed2 (of_Z (10 ^ 21)) = of_Z (10 ^ 21).
Proof. vm_compute. repeat split. Qed.




(** The integers of hundredths of this pair are [7508] and [7492]: the
    clamped values are just below [75.085] and just above [74.915]. *)
Example hundredths_digits :
  toFixed2_digits 5283637156579901 (-46) = 7508%Z /\
  toFixed2_digits 5271674470069699 (-46) = 7492%Z /\
  parse_hundredths false 7508 = decimal_literal 7508 2 /\
  parse_hundredths false 7492 = decimal_literal 7492 2.
Proof. vm_compute. repeat split. Qed.

(** The order of two rows that are not clamped is lost in the same way
    (C5): the raw scores [0.01] and [0] both get [75], and so do
    [50.004] and [50]; the values of the formula lie strictly between
    [0] and [100]. *)
Example rank_order_ties :
  adjusted_scores [decimal_literal 1 2; of_Z 0] (of_Z 100) (of_Z 75)
    "robust" (of_Z 1)
  = [of_Z 75; of_Z 75] /\
  adjusted_scores closeScores (of_Z 100) (of_Z 75) "robust" (of_Z 1)
  = [of_Z 75; of_Z 75] /\
  forallb (fun x => lt zero x && lt x (of_Z 100))
    (map (formula (stats (table 1 closeScores) (of_Z 100) (of_Z 75))
            "robust" (of_Z 1)) closeScores
     ++ map (formula (stats (table 1 [decimal_literal 1 2; of_Z 0])
                        (of_Z 100) (of_Z 75)) "robust" (of_Z 1))
          [decimal_literal 1 2; of_Z 0])
  = true.
Proof. vm_compute. repeat split. Qed.

(** C6 (as stated) fails.  Ratio method, raw scores [0.123] and
    [-0.123]: the mean is [0], and the first row gets [0.12], not
    [min(100, max(0, 0.123)) = 0.123]. *)
Lemma ratio_zero_mean_counterexample :
  let st := oppositeStats in
  is_zero (rawMean st) = true /\
  map adjusted
    (normalizedData (table 1 oppositeScores) st "ratio" (of_Z 1) (of_Z 100))
  = [decimal_literal 12 2; zero] /\
  Math_min (of_Z 100) (Math_max zero (decimal_literal 123 3))
  = decimal_literal 123 3 /\
  strict_equal (decimal_literal 12 2) (decimal_literal 123 3) = false.
Proof. vm_compute. repeat split. Qed.

(** C6 (amended).  Ratio method with [rawMean === 0]: the raw score is
    not multiplied; it is clamped and then rounded to two decimals. *)
Theorem ratio_zero_mean (st : Stats) (sdScaling maxMarks : number)
    (s : Student) :
  is_zero (rawMean st) = true ->
  number_isNaN (parseFloat (raw s)) = false ->
  formula st "ratio" sdScaling (parseFloat (raw s)) = parseFloat (raw s) /\
  adjusted (normalize st "ratio" sdScaling maxMarks s)
  = parseFloat_toFixed2
      (Math_min maxMarks (Math_max zero (parseFloat (raw s)))).
Proof.
  intros Hz Hr.
  assert (F : formula st "ratio" sdScaling (parseFloat (raw s))
              = parseFloat (raw s))
    by (unfold formula; simpl; rewrite Hz; reflexivity).
  split; [exact F|].
  rewrite normalize_adjusted by exact Hr.
  unfold clamped, clamp. rewrite F. reflexivity.
Qed.

Lemma ratio_zero_mean_witness :
  let st := oppositeStats in
  let s := scored (decimal_literal 123 3) in
  is_zero (rawMean st) = true /\
  number_isNaN (parseFloat (raw s)) = false /\
  adjusted (normalize st "ratio" (of_Z 1) (of_Z 100) s)
  = parseFloat_toFixed2
      (Math_min (of_Z 100) (Math_max zero (parseFloat (raw s)))).
Proof.
  intros st s.
  assert (H1 : is_zero (rawMean st) = true) by (vm_compute; reflexivity).
  assert (H2 : number_isNaN (parseFloat (raw s)) = false)
    by (vm_compute; reflexivity).
  split; [exact H1|]. split; [exact H2|].
  exact (proj2 (ratio_zero_mean st (of_Z 1) (of_Z 100) s H1 H2)).
Defined.

(** X18. A [NaN] is not clamped: when the value of the formula or
    [maxMarks] is [NaN], the adjusted score of a row whose raw score
    parses is [NaN]. *)
Theorem adjusted_not_a_number (st : Stats) (method : string)
    (sdScaling maxMarks : number) (s : Student) :
  number_isNaN (parseFloat (raw s)) = false ->
  number_isNaN (formula st method sdScaling (parseFloat (raw s))) = true \/
  number_isNaN maxMarks = true ->
  adjusted (normalize st method sdScaling maxMarks s) = NaN.
Proof.
  intros Hr H. rewrite normalize_adjusted by exact Hr.
  apply parseFloat_toFixed2_NaN. unfold clamped, clamp.
  rewrite Math_min_NaN; [reflexivity|].
  destruct H as [H | H]; [right | left; exact H].
  rewrite Math_max_NaN by exact H. reflexivity.
Qed.

Lemma adjusted_not_a_number_witness :
  let st := stats (table 1 [of_Z 0; of_Z 1]) (of_Z 100) (of_Z (10 ^ 308)) in
  number_isNaN (parseFloat (raw (scored (of_Z 0)))) = false /\
  (number_isNaN (formula st "ratio" (of_Z 1) (parseFloat (raw (scored (of_Z 0)))))
   = true \/ number_isNaN (of_Z 100) = true) /\
  adjusted (normalize st "ratio" (of_Z 1) (of_Z 100) (scored (of_Z 0))) = NaN.
Proof.
  intros st.
  assert (H1 : number_isNaN (parseFloat (raw (scored (of_Z 0)))) = false)
    by reflexivity.
  assert (H2 : number_isNaN
                 (formula st "ratio" (of_Z 1)
                    (parseFloat (raw (scored (of_Z 0))))) = true \/
               number_isNaN (of_Z 100) = true)
    by (left; vm_compute; reflexivity).
  split; [exact H1|]. split; [exact H2|].
  exact (adjusted_not_a_number st "ratio" (of_Z 1) (of_Z 100)
           (scored (of_Z 0)) H1 H2).
Defined.

(** X19. Rows clamped at the same end are tied, under either method
    and any spread factor: with [maxMarks >= 0], two rows whose formula
    values are both at least [maxMarks] both get [maxMarks] rounded to
    two decimals, and two rows whose formula values are both at most
    [0] both get [0]. *)
Theorem clamped_rows_tie (st : Stats) (method : string)
    (sdScaling maxMarks : number) (sa sb : Student) :
  le zero maxMarks = true ->
  number_isNaN (parseFloat (raw sa)) = false ->
  number_isNaN (parseFloat (raw sb)) = false ->
  (le maxMarks (formula st method sdScaling (parseFloat (raw sa))) = true ->
   le maxMarks (formula st method sdScaling (parseFloat (raw sb))) = true ->
   adjusted (normalize st method sdScaling maxMarks sa)
   = parseFloat_toFixed2 maxMarks /\
   adjusted (normalize st method sdScaling maxMarks sb)
   = parseFloat_toFixed2 maxMarks) /\
  (le (formula st method sdScaling (parseFloat (raw sa))) zero = true ->
   le (formula st method sdScaling (parseFloat (raw sb))) zero = true ->
   adjusted (normalize st method sdScaling maxMarks sa) = zero /\
   adjusted (normalize st method sdScaling maxMarks sb) = zero).
Proof.
  intros Hm Ha Hb. rewrite !normalize_adjusted by assumption.
  unfold clamped. split; intros Fa Fb.
  - split; apply clamp_top; assumption.
  - split; apply clamp_bottom; assumption.
Qed.

Lemma clamped_rows_tie_witness :
  (le zero (of_Z 60) = true /\
   number_isNaN (parseFloat (raw studentB)) = false /\
   number_isNaN (parseFloat (raw studentA)) = false /\
   le (of_Z 60) (formula initialStats "robust" (of_Z 1)
                   (parseFloat (raw studentB))) = true /\
   le (of_Z 60) (formula initialStats "robust" (of_Z 1)
                   (parseFloat (raw studentA))) = true) /\
  adjusted (normalize initialStats "robust" (of_Z 1) (of_Z 60) studentB)
  = parseFloat_toFixed2 (of_Z 60) /\
  adjusted (normalize initialStats "robust" (of_Z 1) (of_Z 60) studentA)
  = parseFloat_toFixed2 (of_Z 60).
Proof.
  assert (H1 : le zero (of_Z 60) = true) by (vm_compute; reflexivity).
  assert (H2 : number_isNaN (parseFloat (raw studentB)) = false)
    by reflexivity.
  assert (H3 : number_isNaN (parseFloat (raw studentA)) = false)
    by reflexivity.
  assert (H4 : le (of_Z 60) (formula initialStats "robust" (of_Z 1)
                               (parseFloat (raw studentB))) = true)
    by (vm_compute; reflexivity).
  assert (H5 : le (of_Z 60) (formula initialStats "robust" (of_Z 1)
                               (parseFloat (raw studentA))) = true)
    by (vm_compute; reflexivity).
  split; [repeat split; assumption|].
  exact (proj1 (clamped_rows_tie initialStats "robust" (of_Z 1) (of_Z 60)
                  studentB studentA H1 H2 H3) H4 H5).
Defined.

End Normalization64.

Section Target64.
Import SpecFloat Binary64.

(** C7 (as stated) fails.  For the empty table, [maxMarks = 100] and
    [targetMeanPercent = 75], the target is [0], not [75]; and for a
    table with a score and [targetMeanPercent = 7] the quotient [0.07]
    is rounded, so that the target is [7.000000000000001], not [7]. *)
Lemma target_mean_points_counterexample :
  targetMeanPoints (stats [] (of_Z 100) (of_Z 75)) = zero /\
  mul (div (of_Z 75) (of_Z 100)) (of_Z 100) = of_Z 75 /\
  targetMeanPoints (stats initialStudents (of_Z 100) (of_Z 7))
  = S754_finite false 7881299347898369 (-50) /\
  of_Z 7 = S754_finite false 7881299347898368 (-50).
Proof. vm_compute. repeat split. Qed.

(** C7 (amended).  Whenever the table has a valid score,
    [targetMeanPoints] is the binary64 product of the binary64 quotient
    [targetMeanPercent / 100] and [maxMarks], for any
    [targetMeanPercent] and [maxMarks], without clamping. *)
Theorem target_mean_points_formula (students : list Student)
    (maxMarks targetMeanPercent : number) :
  validScores students <> [] ->
  targetMeanPoints (stats students maxMarks targetMeanPercent)
  = mul (div targetMeanPercent (of_Z 100)) maxMarks.
Proof. intros H. rewrite stats_of_valid by exact H. reflexivity. Qed.

Lemma target_mean_points_formula_witness :
  validScores initialStudents <> [] /\
  targetMeanPoints (stats initialStudents (of_Z 100) (of_Z 150))
  = mul (div (of_Z 150) (of_Z 100)) (of_Z 100).
Proof.
  assert (H : validScores initialStudents <> []) by discriminate.
  split; [exact H|].
  exact (target_mean_points_formula initialStudents (of_Z 100) (of_Z 150) H).
Defined.

(** Targets outside the range of marks. *)
Example target_outside_range :
  targetMeanPoints (stats initialStudents (of_Z 100) (of_Z 150)) = of_Z 150 /\
  targetMeanPoints (stats initialStudents (of_Z 100) (neg (of_Z 10)))
  = neg (of_Z 10).
Proof. vm_compute. split; reflexivity. Qed.

End Target64.

(** * Properties of the engine over exact numbers *)

(** ** Numbers *)


(** ** Rounding to two decimals *)


Section Fixed2.
Local Open Scope Q_scope.












End Fixed2.

(** ** Statistics *)

Section Statistics.
Local Open Scope Q_scope.

Lemma validScores_none (students : list Student) :
  Forall (fun s => raw s = VEmpty \/ raw s = VNumber NaN) students ->
  validScores students = [].
Proof.
  unfold validScores.
  induction 1 as [|s l Hs _ IH]; [reflexivity|].
  simpl. unfold valid at 1. destruct Hs as [-> | ->]; simpl; exact IH.
Qed.

Lemma stats_of_none (students : list Student) (maxMarks percent : number) :
  validScores students = [] ->
  stats students maxMarks percent =
  {| rawMean := Num 0; rawSD := Some 0%R; targetMeanPoints := Num 0 |}.
Proof.
  intros E. unfold stats. rewrite E. reflexivity.
Qed.

End Statistics.

(** C8. When no raw score is a non-empty numeric value (in particular
    when the table is empty), [stats] returns [rawMean = 0],
    [rawSD = 0] and [targetMeanPoints = 0], whatever [maxMarks] and
    [targetMeanPercent] are. *)
Theorem stats_no_valid_scores (students : list Student)
    (maxMarks targetMeanPercent : number) :
  Forall (fun s => raw s = VEmpty \/ raw s = VNumber NaN) students ->
  stats students maxMarks targetMeanPercent =
  {| rawMean := Num 0; rawSD := Some 0%R; targetMeanPoints := Num 0 |}.
Proof.
  intros H. apply stats_of_none, validScores_none, H.
Qed.

Lemma stats_no_valid_scores_witness :
  Forall (fun s => raw s = VEmpty \/ raw s = VNumber NaN) blankStudents /\
  stats blankStudents (Num 100) (Num 75) =
  {| rawMean := Num 0; rawSD := Some 0%R; targetMeanPoints := Num 0 |}.
Proof.
  assert (H : Forall (fun s => raw s = VEmpty \/ raw s = VNumber NaN)
                blankStudents).
  { repeat constructor. }
  split; [exact H|].
  exact (stats_no_valid_scores blankStudents (Num 100) (Num 75) H).
Defined.

(** ** Clamping *)

Section Clamp.
Local Open Scope Q_scope.






End Clamp.

(** ** Normalization *)

Section Normalization.
Local Open Scope Q_scope.

(** Row [k] of [normalizedData] is the normalized row [k] of the
    table. *)
Lemma normalizedData_nth (students : list Student) (st : Stats)
    (method : string) (sdScaling maxMarks : number) (k : nat) :
  nth_error (normalizedData students st method sdScaling maxMarks) k
  = option_map (normalize st method sdScaling maxMarks)
               (nth_error students k).
Proof. unfold normalizedData. apply nth_error_map. Qed.

Lemma normalize_score (st : Stats) (method : string)
    (sdScaling maxMarks : number) (s : Student) (r : Q) :
  has_score s r ->
  adjusted (normalize st method sdScaling maxMarks s) =
  Js.parseFloat_toFixed2 (clamped st method sdScaling maxMarks (Num r)).
Proof.
  unfold has_score, normalize. intros ->. reflexivity.
Qed.


End Normalization.


Section RankOrder.
Local Open Scope Q_scope.

Variable st : Stats.
Variable method : string.
Hypothesis robust : String.eqb method "ratio" = false.


End RankOrder.


(** ** Handlers *)

(** C9 (as stated) fails: removing the last row of the initial table
    and adding a row assigns the id [5] again. *)
Lemma id_reused_counterexample : ~ ids_not_reused initialStudents.
Proof.
  intros H. apply (H 5%Z []).
  - simpl. auto 6.
  - reflexivity.
Qed.

Example id_reused_trace :
  map id (run initialStudents [Remove 5; Add]) = [1; 2; 3; 4; 5]%Z /\
  map id (run initialStudents [Remove 4; Remove 5; Add]) = [1; 2; 3; 4]%Z /\
  map id (run initialStudents [Remove 4; Remove 5; Add; Add])
    = [1; 2; 3; 4; 5]%Z /\
  map id (run initialStudents [Remove 2; Remove 3; Remove 4; Remove 5; Add])
    = [1; 2]%Z.
Proof. repeat split. Qed.

Section Handlers.
Local Open Scope Z_scope.

Lemma Math_max_ids_ge (first : Z) (rest : list Z) :
  first <= Math_max_ids first rest /\
  Forall (fun i => i <= Math_max_ids first rest) rest.
Proof.
  unfold Math_max_ids. revert first.
  induction rest as [|x rest IH]; intros first; simpl.
  - split; [lia | constructor].
  - destruct (IH (Z.max first x)) as [H1 H2]. split; [lia|].
    constructor; [lia | exact H2].
Qed.

Lemma Math_max_ids_in (first : Z) (rest : list Z) :
  In (Math_max_ids first rest) (first :: rest).
Proof.
  unfold Math_max_ids. revert first.
  induction rest as [|x rest IH]; intros first; simpl.
  - auto.
  - destruct (IH (Z.max first x)) as [H | H].
    + rewrite <- H.
      destruct (Z.max_spec first x) as [[_ E] | [_ E]]; rewrite E; auto.
    + auto.
Qed.

Lemma newId_greater (students : list Student) :
  Forall (fun s => id s < newId students) students.
Proof.
  unfold newId. apply Forall_forall. intros s Hs.
  apply (in_map id) in Hs. destruct (map id students) as [|i ids]; [easy|].
  destruct (Math_max_ids_ge i ids) as [H1 H2].
  destruct Hs as [<- | Hs]; [lia|].
  rewrite Forall_forall in H2. specialize (H2 _ Hs). lia.
Qed.

Lemma newId_successor (students : list Student) :
  students <> [] -> Exists (fun s => newId students = id s + 1) students.
Proof.
  intros Hne. unfold newId.
  destruct (map id students) as [|i ids] eqn:E.
  - destruct students; [contradiction | discriminate].
  - apply Exists_exists.
    pose proof (Math_max_ids_in i ids) as Hin. rewrite <- E in Hin.
    apply in_map_iff in Hin. destruct Hin as [s [Hs Hin]].
    exists s. split; [exact Hin | lia].
Qed.

Lemma newId_fresh (students : list Student) :
  ~ In (newId students) (map id students).
Proof.
  intros H. apply in_map_iff in H. destruct H as [s [E Hs]].
  pose proof (newId_greater students) as G. rewrite Forall_forall in G.
  specialize (G s Hs). lia.
Qed.

Lemma newId_assigned (students : list Student) (i : Z) :
  newId students = i <->
  (students = [] /\ i = 1) \/
  (Exists (fun s => id s + 1 = i) students /\
   Forall (fun s => id s < i) students).
Proof.
  split.
  - intros <-. destruct students as [|s l]; [left; split; reflexivity|].
    right. split; [|apply newId_greater].
    pose proof (newId_successor (s :: l) ltac:(discriminate)) as H.
    apply Exists_exists in H. destruct H as [x [Hx E]].
    apply Exists_exists. exists x. split; [exact Hx | lia].
  - intros [[-> ->] | [He Hf]]; [reflexivity|].
    apply Exists_exists in He. destruct He as [x [Hx E]].
    pose proof (newId_greater students) as G. rewrite Forall_forall in G.
    specialize (G x Hx).
    assert (Hne : students <> []) by (intros ->; contradiction).
    pose proof (newId_successor students Hne) as S.
    apply Exists_exists in S. destruct S as [y [Hy Ey]].
    rewrite Forall_forall in Hf. specialize (Hf y Hy). lia.
Qed.

Lemma addStudent_ids (students : list Student) :
  map id (addStudent students) = map id students ++ [newId students].
Proof. unfold addStudent. rewrite map_app. reflexivity. Qed.

Lemma removeStudent_ids (students : list Student) (i : Z) :
  map id (removeStudent students i)
  = filter (fun j => negb (Z.eqb j i)) (map id students).
Proof.
  unfold removeStudent. induction students as [|s l IH]; [reflexivity|].
  simpl. destruct (negb (id s =? i)); simpl; rewrite IH; reflexivity.
Qed.

Lemma step_NoDup (students : list Student) (a : action) :
  NoDup (map id students) -> NoDup (map id (step students a)).
Proof.
  intros H. destruct a as [|i]; simpl.
  - rewrite addStudent_ids. apply NoDup_app; [exact H | | ].
    + apply NoDup_cons; [simpl; tauto | apply NoDup_nil].
    + intros x Hx [<- | []]. exact (newId_fresh students Hx).
  - rewrite removeStudent_ids. apply NoDup_filter, H.
Qed.

Lemma run_NoDup (students : list Student) (acts : list action) :
  NoDup (map id students) -> NoDup (map id (run students acts)).
Proof.
  unfold run. revert students.
  induction acts as [|a acts IH]; intros students H; simpl; [exact H|].
  apply IH, step_NoDup, H.
Qed.

End Handlers.

(** C9 (amended). [addStudent] appends one record whose id is [1] on an
    empty table and otherwise the largest id of the table plus one: it
    is greater than every id present, so it differs from all of them and
    ids stay distinct across any sequence of adds and removes.  Nothing
    is kept of removed ids: an add assigns the id [i], removed before or
    not, exactly when the table is empty and [i] is [1], or the largest
    id of the table is [i - 1]. *)
Theorem addStudent_newId (students : list Student) :
  (students = [] -> newId students = 1%Z) /\
  (students <> [] ->
   Forall (fun s => (id s < newId students)%Z) students /\
   Exists (fun s => newId students = (id s + 1)%Z) students) /\
  addStudent students =
    students ++ [ {| id := newId students;
                     name := ("Student " ++ decimal (newId students))%string;
                     raw := VNumber (Num 0) |} ] /\
  ~ In (newId students) (map id students) /\
  (forall acts, NoDup (map id students) ->
                NoDup (map id (run students acts))) /\
  (forall i, Exists (fun s => (i <= id s)%Z) students -> newId students <> i) /\
  (forall i,
     newId students = i <->
     (students = [] /\ i = 1%Z) \/
     (Exists (fun s => (id s + 1)%Z = i) students /\
      Forall (fun s => (id s < i)%Z) students)).
Proof.
  split; [intros ->; reflexivity|].
  split; [intros H; split; [apply newId_greater | apply newId_successor, H]|].
  split; [reflexivity|].
  split; [apply newId_fresh|].
  split; [intros acts; apply run_NoDup|].
  split; [|apply newId_assigned].
  intros i H E. apply Exists_exists in H. destruct H as [s [Hs Hi]].
  pose proof (newId_greater students) as G. rewrite Forall_forall in G.
  specialize (G s Hs). lia.
Qed.

Example addStudent_initial :
  newId initialStudents = 6%Z /\
  map name (addStudent initialStudents)
  = ["Student A"; "Student B"; "Student C"; "Student D"; "Student E";
     "Student 6"]%string /\
  newId [] = 1%Z.
Proof. repeat split. Qed.

(** ** [updateStudent] *)

(** What [{ ...s, [field]: value }] changes, field by field. *)
Lemma with_field_frame (s : Student) (fv : field_value) :
  match fv with
  | set_id v =>
      id (with_field s fv) = v /\
      name (with_field s fv) = name s /\ raw (with_field s fv) = raw s
  | set_name v =>
      id (with_field s fv) = id s /\
      name (with_field s fv) = v /\ raw (with_field s fv) = raw s
  | set_raw v =>
      id (with_field s fv) = id s /\
      name (with_field s fv) = name s /\ raw (with_field s fv) = v
  end.
Proof. destruct fv; repeat split. Qed.

Lemma updateStudent_nth (students : list Student) (i : Z) (fv : field_value)
    (k : nat) :
  nth_error (updateStudent students i fv) k =
  option_map (fun s => if Z.eqb (id s) i then with_field s fv else s)
             (nth_error students k).
Proof. unfold updateStudent. apply nth_error_map. Qed.

Lemma updateStudent_absent (students : list Student) (i : Z)
    (fv : field_value) :
  ~ In i (map id students) -> updateStudent students i fv = students.
Proof.
  unfold updateStudent. induction students as [|s l IH]; intros H.
  - reflexivity.
  - simpl in *. destruct (Z.eqb_spec (id s) i) as [E | E].
    + exfalso. apply H. left. exact E.
    + rewrite IH; [reflexivity | tauto].
Qed.

Lemma NoDup_nth_error_id (students : list Student) (k k' : nat)
    (s s' : Student) :
  NoDup (map id students) ->
  nth_error students k = Some s -> nth_error students k' = Some s' ->
  id s = id s' -> k = k'.
Proof.
  intros ND Hk Hk' E.
  rewrite NoDup_nth_error in ND. apply ND.
  - apply nth_error_Some. rewrite nth_error_map, Hk. discriminate.
  - rewrite !nth_error_map, Hk, Hk'. simpl. congruence.
Qed.

(** C10. [updateStudent(id, field, value)] returns a list of the same
    length in the same order; at every position the record is the old
    one, with the named field (and no other) set to the value if its id
    matches and untouched otherwise; with distinct ids at most one
    position changes; and when no record has the id the list is returned
    unchanged. *)
Theorem updateStudent_frame (students : list Student) (i : Z)
    (fv : field_value) :
  length (updateStudent students i fv) = length students /\
  (forall k s, nth_error students k = Some s ->
     (id s <> i -> nth_error (updateStudent students i fv) k = Some s) /\
     (id s = i ->
      nth_error (updateStudent students i fv) k = Some (with_field s fv))) /\
  (forall s,
     match fv with
     | set_id v =>
         id (with_field s fv) = v /\
         name (with_field s fv) = name s /\ raw (with_field s fv) = raw s
     | set_name v =>
         id (with_field s fv) = id s /\
         name (with_field s fv) = v /\ raw (with_field s fv) = raw s
     | set_raw v =>
         id (with_field s fv) = id s /\
         name (with_field s fv) = name s /\ raw (with_field s fv) = v
     end) /\
  (NoDup (map id students) ->
   forall k k' s s',
     nth_error students k = Some s -> nth_error students k' = Some s' ->
     nth_error (updateStudent students i fv) k <> Some s ->
     nth_error (updateStudent students i fv) k' <> Some s' ->
     k = k') /\
  (~ In i (map id students) -> updateStudent students i fv = students).
Proof.
  split; [unfold updateStudent; apply length_map|].
  split.
  { intros k s Hk. rewrite updateStudent_nth, Hk. simpl.
    destruct (Z.eqb_spec (id s) i) as [E | E]; split; intros H;
      try reflexivity; contradiction. }
  split; [intros s; apply with_field_frame|].
  split; [|apply updateStudent_absent].
  intros ND k k' s s' Hk Hk' Ck Ck'.
  rewrite updateStudent_nth, Hk in Ck. rewrite updateStudent_nth, Hk' in Ck'.
  simpl in Ck, Ck'.
  destruct (Z.eqb_spec (id s) i) as [E | E]; [|contradiction].
  destruct (Z.eqb_spec (id s') i) as [E' | E']; [|contradiction].
  apply (NoDup_nth_error_id students k k' s s' ND Hk Hk'). congruence.
Qed.

Example updateStudent_initial :
  map raw (updateStudent initialStudents 3 (set_raw VEmpty))
  = [VNumber (Num 65); VNumber (Num 55); VEmpty; VNumber (Num 40);
     VNumber (Num 70)] /\
  updateStudent initialStudents 9 (set_name "X") = initialStudents.
Proof. split; reflexivity. Qed.

(** * Further properties of the handlers *)

Section TableEdits.
Local Open Scope Z_scope.

Lemma updateStudent_ids (students : list Student) (i : Z) (fv : field_value) :
  keeps_id fv -> map id (updateStudent students i fv) = map id students.
Proof.
  intros K. unfold updateStudent. rewrite map_map. apply map_ext.
  intros s. destruct (id s =? i); [|reflexivity].
  destruct fv; [contradiction | reflexivity | reflexivity].
Qed.

Lemma apply_edit_NoDup (students : list Student) (e : edit) :
  NoDup (map id students) -> NoDup (map id (apply_edit students e)).
Proof.
  intros H. destruct e as [|i|i v|i v]; simpl.
  - rewrite addStudent_ids. apply NoDup_app; [exact H | | ].
    + apply NoDup_cons; [simpl; tauto | apply NoDup_nil].
    + intros x Hx [<- | []]. exact (newId_fresh students Hx).
  - rewrite removeStudent_ids. apply NoDup_filter, H.
  - rewrite updateStudent_ids; [exact H | exact I].
  - rewrite updateStudent_ids; [exact H | exact I].
Qed.

(** X1. Whatever the user does with the table (add a row, delete a row,
    edit a name, edit a raw score, in any order and with any arguments),
    a table whose ids are distinct keeps distinct ids. *)
Theorem edits_keep_ids_distinct (students : list Student) (es : list edit) :
  NoDup (map id students) -> NoDup (map id (apply_edits students es)).
Proof.
  unfold apply_edits. revert students.
  induction es as [|e es IH]; intros students H; simpl; [exact H|].
  apply IH, apply_edit_NoDup, H.
Qed.

Lemma edits_keep_ids_distinct_witness :
  NoDup (map id initialStudents) /\
  NoDup (map id (apply_edits initialStudents
                   [RemoveRow 2; AddRow; EditRaw 6 VEmpty;
                    EditName 1 "X"; AddRow])).
Proof.
  assert (H : NoDup (map id initialStudents)).
  { simpl. repeat (apply NoDup_cons; [simpl; intuition lia|]).
    apply NoDup_nil. }
  split; [exact H|].
  exact (edits_keep_ids_distinct initialStudents _ H).
Defined.

Lemma removeStudent_keeps (students : list Student) (i : Z) :
  Forall (fun s => id s <> i) students -> removeStudent students i = students.
Proof.
  unfold removeStudent. induction 1 as [|s l Hs _ IH]; [reflexivity|].
  simpl. destruct (Z.eqb_spec (id s) i) as [E | E]; [contradiction|].
  simpl. rewrite IH. reflexivity.
Qed.

(** X2. Deleting the row that [addStudent] has just appended gives the
    table back: the new id belongs to the new row only. *)
Theorem remove_added_row (students : list Student) :
  removeStudent (addStudent students) (newId students) = students.
Proof.
  unfold addStudent, removeStudent. rewrite filter_app. simpl.
  rewrite Z.eqb_refl. simpl. rewrite app_nil_r.
  apply removeStudent_keeps.
  pose proof (newId_greater students) as G.
  eapply Forall_impl; [|exact G]. simpl. intros s Hs. lia.
Qed.

(** X3. [removeStudent] keeps exactly the rows whose id differs from the
    one given; an id that is not in the table leaves the table as it is;
    and in a table with distinct ids, removing a present id takes out
    that single row and leaves the others in their order. *)
Theorem removeStudent_one_row (students : list Student) (i : Z) :
  (forall s, In s (removeStudent students i) <-> In s students /\ id s <> i) /\
  (~ In i (map id students) -> removeStudent students i = students) /\
  (NoDup (map id students) -> In i (map id students) ->
   exists before s after,
     students = before ++ s :: after /\ id s = i /\
     removeStudent students i = before ++ after).
Proof.
  split; [|split].
  - intros s. unfold removeStudent. rewrite filter_In.
    destruct (Z.eqb_spec (id s) i); simpl; intuition congruence.
  - intros H. apply removeStudent_keeps, Forall_forall.
    intros s Hs E. apply H. rewrite <- E. apply in_map, Hs.
  - intros ND Hin. apply in_map_iff in Hin. destruct Hin as [s [E Hs]].
    apply in_split in Hs. destruct Hs as [before [after ->]].
    exists before, s, after. split; [reflexivity|]. split; [exact E|].
    rewrite map_app in ND. simpl in ND.
    pose proof (NoDup_remove_2 _ _ _ ND) as Hout.
    unfold removeStudent. rewrite filter_app. simpl.
    rewrite E, Z.eqb_refl. simpl.
    fold (removeStudent before i). fold (removeStudent after i).
    rewrite !removeStudent_keeps; [reflexivity | |];
      apply Forall_forall; intros x Hx Ex; apply Hout, in_or_app;
      rewrite E, <- Ex;
      first [left; apply in_map, Hx | right; apply in_map, Hx].
Qed.

Lemma newId_after_add (students : list Student) :
  newId (addStudent students) = newId students + 1.
Proof.
  assert (Hne : addStudent students <> []).
  { unfold addStudent. destruct students; discriminate. }
  pose proof (newId_greater (addStudent students)) as G.
  pose proof (newId_successor (addStudent students) Hne) as S.
  rewrite Forall_forall in G. apply Exists_exists in S.
  destruct S as [s [Hs E]].
  assert (Hlast : In {| id := newId students;
                        name := ("Student " ++ decimal (newId students))%string;
                        raw := VNumber (Num 0) |} (addStudent students)).
  { unfold addStudent. apply in_or_app. right. left. reflexivity. }
  specialize (G _ Hlast). simpl in G.
  assert (Hle : id s <= newId students).
  { unfold addStudent in Hs. apply in_app_or in Hs. destruct Hs as [Hs | [<- | []]].
    - pose proof (newId_greater students) as G'. rewrite Forall_forall in G'.
      specialize (G' _ Hs). lia.
    - simpl. lia. }
  lia.
Qed.

(** X4. Pressing "Add Row" [k] times appends [k] rows whose ids are
    consecutive, starting at the id the first add assigns; the rows
    already in the table keep their ids and places. *)
Theorem adds_consecutive (students : list Student) (k : nat) :
  map id (run students (repeat Add k)) =
  map id students ++ map (fun j => newId students + Z.of_nat j) (seq 0 k).
Proof.
  revert students. induction k as [|k IH]; intros students.
  - simpl. rewrite app_nil_r. reflexivity.
  - cbn [repeat run fold_left step]. fold (run (addStudent students) (repeat Add k)).
    rewrite IH, addStudent_ids, newId_after_add, <- app_assoc. f_equal.
    cbn [seq map app]. rewrite Z.add_0_r. f_equal.
    rewrite <- seq_shift, map_map. apply map_ext. intros j. lia.
Qed.

End TableEdits.

Lemma with_field_id (s : Student) (fv : field_value) :
  keeps_id fv -> id (with_field s fv) = id s.
Proof. destruct fv; [contradiction | reflexivity | reflexivity]. Qed.

(** X5. Edits of names and raw scores compose as writes to separate
    cells: writing the same cell twice keeps the last value, and two
    writes to different rows, or to the name and the raw score of one
    row, give the same table in either order. *)
Theorem updateStudent_compose (students : list Student) (i j : Z) :
  (forall a b,
     updateStudent (updateStudent students i (set_name a)) i (set_name b)
     = updateStudent students i (set_name b)) /\
  (forall a b,
     updateStudent (updateStudent students i (set_raw a)) i (set_raw b)
     = updateStudent students i (set_raw b)) /\
  (forall a r,
     updateStudent (updateStudent students i (set_name a)) i (set_raw r)
     = updateStudent (updateStudent students i (set_raw r)) i (set_name a)) /\
  (forall fv fw, keeps_id fv -> keeps_id fw -> i <> j ->
     updateStudent (updateStudent students i fv) j fw
     = updateStudent (updateStudent students j fw) i fv).
Proof.
  unfold updateStudent. repeat split; intros; rewrite !map_map;
    apply map_ext; intros s.
  - destruct (Z.eqb_spec (id s) i) as [E | E]; simpl.
    + rewrite E, Z.eqb_refl. reflexivity.
    + apply Z.eqb_neq in E. rewrite E. reflexivity.
  - destruct (Z.eqb_spec (id s) i) as [E | E]; simpl.
    + rewrite E, Z.eqb_refl. reflexivity.
    + apply Z.eqb_neq in E. rewrite E. reflexivity.
  - destruct (Z.eqb_spec (id s) i) as [E | E]; simpl.
    + rewrite E, Z.eqb_refl. reflexivity.
    + apply Z.eqb_neq in E. rewrite E. reflexivity.
  - destruct (Z.eqb_spec (id s) i) as [Ei | Ei]; cbv beta iota;
      rewrite ?with_field_id by assumption;
      destruct (Z.eqb_spec (id s) j) as [Ej | Ej]; cbv beta iota;
      rewrite ?with_field_id by assumption;
      try (exfalso; congruence);
      destruct (Z.eqb_spec (id s) i) as [Ei' | Ei'];
      try reflexivity; contradiction.
Qed.

(** * Further properties of the statistics and the normalization *)

Section TargetMean.
Local Open Scope Q_scope.

Lemma map_not_nil (A B : Type) (f : A -> B) (l : list A) :
  l <> [] -> map f l <> [].
Proof. destruct l; [contradiction | discriminate]. Qed.

End TargetMean.

Section Order.
Local Open Scope Q_scope.



End Order.


Section Configuration.
Local Open Scope Q_scope.

Lemma scored_row_is_valid (students : list Student) (s : Student) (r : Q) :
  In s students -> has_score s r -> validScores students <> [].
Proof.
  intros Hin Hs. unfold validScores.
  assert (V : In s (filter valid students)).
  { apply filter_In. split; [exact Hin|]. unfold valid. rewrite Hs.
    reflexivity. }
  destruct (filter valid students); [contradiction | discriminate].
Qed.

Lemma stats_targetMeanPoints (students : list Student)
    (maxMarks percent : number) :
  validScores students <> [] ->
  targetMeanPoints (stats students maxMarks percent)
  = Js.mul (Js.div percent (Num 100)) maxMarks.
Proof.
  intros H. unfold stats.
  destruct (validScores students); [contradiction | reflexivity].
Qed.

(** X11. A configuration value that is not a number (a cleared input
    parses to [NaN]) reaches every scored row: with [maxMarks = NaN] the
    adjusted score of a student whose raw score is a number is [NaN]
    under either method, and under the robust method the same happens
    when [targetMeanPercent] or [sdScaling] is [NaN]. *)
Theorem NaN_configuration (students : list Student)
    (maxMarks percent sdScaling : number) (method : string)
    (s : Student) (r : Q) :
  In s students -> has_score s r ->
  (maxMarks = NaN ->
   adjusted (normalize (stats students maxMarks percent) method sdScaling
               maxMarks s) = NaN) /\
  (String.eqb method "ratio" = false ->
   percent = NaN \/ sdScaling = NaN ->
   adjusted (normalize (stats students maxMarks percent) method sdScaling
               maxMarks s) = NaN).
Proof.
  intros Hin Hs. rewrite (normalize_score _ _ _ _ _ _ Hs). split.
  - intros ->. reflexivity.
  - intros Hm Hnan. unfold clamped, clamp, formula. rewrite Hm.
    rewrite (stats_targetMeanPoints _ maxMarks percent
               (scored_row_is_valid students s r Hin Hs)).
    destruct Hnan as [-> | ->].
    + destruct maxMarks; reflexivity.
    + destruct (Js.mul (Js.div percent (Num 100)) maxMarks), maxMarks;
        reflexivity.
Qed.

End Configuration.

Lemma NaN_configuration_witness :
  (In studentA initialStudents /\ has_score studentA 65) /\
  (NaN = NaN ->
   adjusted (normalize (stats initialStudents NaN (Num 75)) "ratio" (Num 1)
               NaN studentA) = NaN) /\
  (String.eqb "ratio" "ratio" = false ->
   Num 75 = NaN \/ Num 1 = NaN ->
   adjusted (normalize (stats initialStudents NaN (Num 75)) "ratio" (Num 1)
               NaN studentA) = NaN).
Proof.
  assert (H1 : In studentA initialStudents) by (left; reflexivity).
  assert (H2 : has_score studentA 65) by reflexivity.
  split; [split; assumption|].
  exact (NaN_configuration initialStudents NaN (Num 75) (Num 1) "ratio"
           studentA 65 H1 H2).
Defined.

Section RowsAndStatistics.
Local Open Scope Q_scope.

(** X12. A row added with "Add Row" counts at once as a score of [0]:
    the valid scores after the add are the valid scores before it
    followed by [0], so the count grows by one and the statistics are
    not those of an empty table. *)
Theorem addStudent_counts_as_zero (students : list Student) :
  validScores (addStudent students) = validScores students ++ [Num 0] /\
  length (validScores (addStudent students))
    = S (length (validScores students)) /\
  validScores (addStudent students) <> [].
Proof.
  assert (E : validScores (addStudent students)
              = validScores students ++ [Num 0]).
  { unfold validScores, addStudent. rewrite filter_app, map_app.
    reflexivity. }
  rewrite E. split; [reflexivity|]. split.
  - rewrite length_app. simpl. apply Nat.add_1_r.
  - intros H. apply app_eq_nil in H. destruct H as [_ H]. discriminate.
Qed.

Lemma blank_row_not_valid (s : Student) :
  raw s = VEmpty \/ raw s = VNumber NaN -> valid s = false.
Proof. unfold valid. intros [-> | ->]; reflexivity. Qed.

(** X13. A row whose raw cell is empty (or not a number) does not take
    part in the statistics, wherever it stands in the table: the three
    statistics are those of the table without it.  The row itself is
    still listed, with the adjusted score [0]. *)
Theorem blank_row_ignored (before after : list Student) (s : Student)
    (maxMarks percent sdScaling : number) (method : string) :
  raw s = VEmpty \/ raw s = VNumber NaN ->
  stats (before ++ s :: after) maxMarks percent
    = stats (before ++ after) maxMarks percent /\
  nth_error
    (normalizedData (before ++ s :: after)
       (stats (before ++ s :: after) maxMarks percent)
       method sdScaling maxMarks) (length before)
    = Some {| student := s; adjusted := Num 0 |}.
Proof.
  intros Hb. split.
  - assert (E : validScores (before ++ s :: after)
                = validScores (before ++ after)).
    { unfold validScores. rewrite !filter_app. simpl.
      rewrite (blank_row_not_valid s Hb). reflexivity. }
    unfold stats. rewrite E. reflexivity.
  - rewrite normalizedData_nth, nth_error_app2 by apply Nat.le_refl.
    rewrite Nat.sub_diag. simpl. f_equal. unfold normalize.
    destruct Hb as [-> | ->]; reflexivity.
Qed.

End RowsAndStatistics.

Lemma blank_row_ignored_witness :
  (raw {| id := 9; name := "Late"; raw := VEmpty |} = VEmpty \/
   raw {| id := 9; name := "Late"; raw := VEmpty |} = VNumber NaN) /\
  stats ([studentA] ++ {| id := 9; name := "Late"; raw := VEmpty |}
           :: [studentB]) (Num 100) (Num 75)
    = stats ([studentA] ++ [studentB]) (Num 100) (Num 75) /\
  nth_error
    (normalizedData
       ([studentA] ++ {| id := 9; name := "Late"; raw := VEmpty |}
          :: [studentB])
       (stats ([studentA] ++ {| id := 9; name := "Late"; raw := VEmpty |}
                 :: [studentB]) (Num 100) (Num 75))
       "robust" (Num 1) (Num 100)) (length [studentA])
    = Some {| student := {| id := 9; name := "Late"; raw := VEmpty |};
              adjusted := Num 0 |}.
Proof.
  assert (H : raw {| id := 9; name := "Late"; raw := VEmpty |} = VEmpty \/
              raw {| id := 9; name := "Late"; raw := VEmpty |} = VNumber NaN)
    by (left; reflexivity).
  split; [exact H|].
  exact (blank_row_ignored [studentA] [studentB] _ (Num 100) (Num 75)
           (Num 1) "robust" H).
Defined.

(** * The exported text *)

Section CsvText.
Local Open Scope string_scope.

Lemma string_app_assoc (x y z : string) : (x ++ y) ++ z = x ++ (y ++ z).
Proof.
  induction x as [|a x IH]; simpl; [reflexivity|]. rewrite IH. reflexivity.
Qed.

Lemma occurrences_app (c : Ascii.ascii) (x y : string) :
  occurrences c (x ++ y) = (occurrences c x + occurrences c y)%nat.
Proof.
  induction x as [|a x IH]; simpl; [reflexivity|]. rewrite IH. lia.
Qed.

Lemma split_on_length (c : Ascii.ascii) (s : string) :
  length (split_on c s) = S (occurrences c s).
Proof.
  induction s as [|a s IH]; simpl; [reflexivity|].
  destruct (Ascii.eqb a c); simpl.
  - rewrite IH. reflexivity.
  - destruct (split_on c s); simpl in *; lia.
Qed.

Lemma split_on_none (c : Ascii.ascii) (s : string) :
  occurrences c s = 0%nat -> split_on c s = [s].
Proof.
  induction s as [|a s IH]; simpl; [reflexivity|].
  destruct (Ascii.eqb a c); simpl; [discriminate|].
  intros H. rewrite (IH H). reflexivity.
Qed.

Lemma split_on_first (c : Ascii.ascii) (x y : string) :
  occurrences c x = 0%nat ->
  split_on c (x ++ String c y) = x :: split_on c y.
Proof.
  induction x as [|a x IH]; simpl.
  - intros _. rewrite Ascii.eqb_refl. reflexivity.
  - destruct (Ascii.eqb a c); simpl; [discriminate|].
    intros H. rewrite (IH H). reflexivity.
Qed.

(** Splitting undoes joining when no element holds the separator. *)
Lemma split_on_join (c : Ascii.ascii) (l : list string) :
  l <> [] ->
  Forall (fun x => occurrences c x = 0%nat) l ->
  split_on c (join (String c "") l) = l.
Proof.
  intros Hne H. induction H as [|x l Hx Hl IH]; [contradiction|].
  destruct l as [|y l].
  - simpl. apply split_on_none, Hx.
  - change (join (String c "") (x :: y :: l))
      with (x ++ String c (join (String c "") (y :: l))).
    rewrite (split_on_first c x _ Hx), IH; [reflexivity | discriminate].
Qed.

Lemma occurrences_join (c : Ascii.ascii) (sep : string) (l : list string) :
  occurrences c sep = 0%nat ->
  Forall (fun x => occurrences c x = 0%nat) l ->
  occurrences c (join sep l) = 0%nat.
Proof.
  intros Hsep H. induction H as [|x l Hx Hl IH]; [reflexivity|].
  destruct l as [|y l]; [exact Hx|].
  change (join sep (x :: y :: l)) with (x ++ sep ++ join sep (y :: l)).
  rewrite !occurrences_app, Hx, Hsep, IH. reflexivity.
Qed.

Variable ToString : number -> string.

Lemma row_line_plain (r : Normalized) :
  plain_row ToString r ->
  occurrences linefeed
    (join "," [name r; raw_text ToString (raw r); ToString (adjusted r)])
  = 0%nat.
Proof.
  intros [[_ H1] [[_ H2] [_ H3]]].
  apply occurrences_join; [reflexivity|]. repeat constructor; assumption.
Qed.

Lemma row_line_split (r : Normalized) :
  plain_row ToString r ->
  split_on comma
    (join "," [name r; raw_text ToString (raw r); ToString (adjusted r)])
  = [name r; raw_text ToString (raw r); ToString (adjusted r)].
Proof.
  intros [[H1 _] [[H2 _] [H3 _]]].
  apply (split_on_join comma); [discriminate|].
  repeat constructor; assumption.
Qed.

(** X16. The exported text can be read back when no cell holds a comma
    or a line feed: splitting it at line feeds and then at commas gives
    the header row followed by the rows [name, raw, adjusted] of the
    table, in table order.  For the empty table the text is the header
    line and a line feed.  [csvContent] is this text behind the
    data-URI prefix. *)
Theorem csv_read_back (normalizedData : list Normalized) :
  csvContent ToString normalizedData
    = "data:text/csv;charset=utf-8," ++ csvText ToString normalizedData /\
  csvText ToString [] = "Student Name,Raw Score,Adjusted Score" ++ newline /\
  (normalizedData <> [] ->
   Forall (plain_row ToString) normalizedData ->
   map (split_on comma) (split_on linefeed (csvText ToString normalizedData))
   = headers :: rows ToString normalizedData).
Proof.
  split; [|split].
  - unfold csvContent, csvText. rewrite !string_app_assoc. reflexivity.
  - reflexivity.
  - intros Hne Hplain. unfold csvText, newline.
    change (String (Ascii.ascii_of_nat 10) EmptyString
            ++ join (String (Ascii.ascii_of_nat 10) "")
                 (map (join ",") (rows ToString normalizedData)))
      with (String linefeed
              (join (String linefeed "")
                 (map (join ",") (rows ToString normalizedData)))).
    rewrite split_on_first by reflexivity.
    rewrite split_on_join.
    + cbn [map]. f_equal.
      unfold rows. rewrite !map_map.
      clear Hne. induction Hplain as [|r l Hr _ IH]; [reflexivity|].
      simpl. f_equal; [|exact IH].
      apply (row_line_split r Hr).
    + unfold rows. rewrite map_map. apply map_not_nil, Hne.
    + unfold rows. rewrite map_map. apply Forall_map.
      eapply Forall_impl; [|exact Hplain].
      intros r Hr. apply (row_line_plain r Hr).
Qed.

(** X17. Nothing is quoted or escaped: the exported line of a row splits
    at commas into three fields plus one more for every comma in the
    student's name (the number cells holding none), so a name with a
    comma shifts the score columns of its row. *)
Theorem csv_no_escaping (r : Normalized) :
  occurrences comma (raw_text ToString (raw r)) = 0%nat ->
  occurrences comma (ToString (adjusted r)) = 0%nat ->
  length (split_on comma
            (join "," [name r; raw_text ToString (raw r);
                       ToString (adjusted r)]))
  = (3 + occurrences comma (name r))%nat.
Proof.
  intros H2 H3. rewrite split_on_length. cbn [join].
  rewrite !occurrences_app, H2, H3.
  change (occurrences comma ",") with 1%nat. lia.
Qed.

End CsvText.

Example csv_two_rows :
  csvText print_integer
    (normalizedData
       [ {| id := 1; name := "Ann"; raw := VNumber (Num 70) |};
         {| id := 2; name := "Bob"; raw := VNumber (Num 80) |} ]
       (stats [ {| id := 1; name := "Ann"; raw := VNumber (Num 70) |};
                {| id := 2; name := "Bob"; raw := VNumber (Num 80) |} ]
          (Num 100) (Num 75))
       "robust" (Num 1) (Num 100))
  = ("Student Name,Raw Score,Adjusted Score" ++ newline
     ++ "Ann,70,70" ++ newline ++ "Bob,80,80")%string.
Proof. vm_compute. reflexivity. Qed.

Lemma csv_no_escaping_witness :
  (occurrences comma
     (raw_text print_integer
        (raw {| student := {| id := 1; name := "Doe, Jane";
                              raw := VNumber (Num 70) |};
                adjusted := Num 70 |})) = 0%nat /\
   occurrences comma
     (print_integer
        (adjusted {| student := {| id := 1; name := "Doe, Jane";
                                   raw := VNumber (Num 70) |};
                     adjusted := Num 70 |})) = 0%nat) /\
  length (split_on comma
            (join ","
               [name {| student := {| id := 1; name := "Doe, Jane";
                                      raw := VNumber (Num 70) |};
                        adjusted := Num 70 |};
                raw_text print_integer
                  (raw {| student := {| id := 1; name := "Doe, Jane";
                                        raw := VNumber (Num 70) |};
                          adjusted := Num 70 |});
                print_integer
                  (adjusted {| student := {| id := 1; name := "Doe, Jane";
                                             raw := VNumber (Num 70) |};
                               adjusted := Num 70 |})]))
  = (3 + occurrences comma
           (name {| student := {| id := 1; name := "Doe, Jane";
                                  raw := VNumber (Num 70) |};
                    adjusted := Num 70 |}))%nat.
Proof.
  assert (H1 : occurrences comma
     (raw_text print_integer
        (raw {| student := {| id := 1; name := "Doe, Jane";
                              raw := VNumber (Num 70) |};
                adjusted := Num 70 |})) = 0%nat) by reflexivity.
  assert (H2 : occurrences comma
     (print_integer
        (adjusted {| student := {| id := 1; name := "Doe, Jane";
                                   raw := VNumber (Num 70) |};
                     adjusted := Num 70 |})) = 0%nat) by reflexivity.
  split; [split; assumption|].
  exact (csv_no_escaping print_integer _ H1 H2).
Defined.
